(** * The N-HITS revenue forecasting worker (scripts/nhits_forecast.py)
      and the rows of the weather loader (scripts/load_weather.py)

    A shallow embedding of the worker and the properties of its
    fallback chain.  Python floats are IEEE binary64 numbers
    ([PrimFloat.float]), Python ints are [Z], a JSON object is a finite
    map from strings to values, and an exception is the [Raise] case of
    a result type.  The two libraries the script calls (pandas and
    neuralforecast) are interfaces: every theorem holds for all their
    implementations, and a small reference implementation is given to
    run the worker on concrete requests.

    The embedding starts after [json.loads]: a request has the types of
    the interface (a list of JSON objects, an integer horizon).  Lists
    are unbounded, so [MemoryError] does not occur, and only exceptions
    deriving from [Exception] are modelled. *)

From Stdlib Require Import ZArith String Ascii List Sorted Lia PrimFloat SpecFloat FloatOps.
From stdpp Require Import gmap strings list sorting.

Local Open Scope Z_scope.

(** ** Exceptions and results *)

(** [type(e).__name__] and [str(e)] of a Python exception. *)
Record exn := Exn { exn_type : string; exn_msg : string }.

Inductive result (A : Type) : Type :=
  | Ok (a : A)
  | Raise (e : exn).
Arguments Ok {A} a.
Arguments Raise {A} e.

#[global] Instance result_ret : MRet result := λ A a, Ok a.
#[global] Instance result_bind : MBind result := λ A B f m,
  match m with
  | Ok a => f a
  | Raise e => Raise e
  end.
#[global] Instance result_fmap : FMap result := λ A B f m,
  match m with
  | Ok a => Ok (f a)
  | Raise e => Raise e
  end.

Definition is_ok {A} (m : result A) : bool :=
  match m with
  | Ok _ => true
  | Raise _ => false
  end.

(** [try: body  except Exception as e: handler(e)]. *)
Definition try_except {A} (body : result A) (handler : exn → result A) : result A :=
  match body with
  | Ok a => Ok a
  | Raise e => handler e
  end.

(** ** Python values and arithmetic *)

(** What [json.loads] produces. *)
#[local] Set Warnings "-register-all".
Inductive pyval : Type :=
  | PyNone
  | PyBool (b : bool)
  | PyInt (z : Z)
  | PyFloat (f : float)
  | PyStr (s : string)
  | PyList (items : list pyval)
  | PyDict (items : list (string * pyval)).

(** One historical record: a JSON object. *)
Abbreviation record := (gmap string pyval).

Definition type_name (v : pyval) : string :=
  match v with
  | PyNone => "NoneType"
  | PyBool _ => "bool"
  | PyInt _ => "int"
  | PyFloat _ => "float"
  | PyStr _ => "str"
  | PyList _ => "list"
  | PyDict _ => "dict"
  end.

Definition ValueError (msg : string) : exn := Exn "ValueError" msg.
Definition TypeError (msg : string) : exn := Exn "TypeError" msg.
Definition OverflowError (msg : string) : exn := Exn "OverflowError" msg.
Definition ZeroDivisionError (msg : string) : exn := Exn "ZeroDivisionError" msg.
(** [str(KeyError(k))] is the repr of the key. *)
Definition KeyError (key : string) : exn := Exn "KeyError" ("'" +:+ key +:+ "'").

(** [float(z)] for an int: the nearest binary64 number, ties to even;
    [OverflowError] when that is out of range. *)
Definition float_of_int (z : Z) : result float :=
  let f := SF2Prim (binary_normalize prec emax z 0 false) in
  if is_infinity f then Raise (OverflowError "int too large to convert to float")
  else Ok f.

(** [a / b] on ints: the exact quotient rounded once, ties to even.  The
    quotient is computed with at least 55 significant bits and a sticky
    last bit, which rounds as the exact value does. *)
Definition int_truediv (a b : Z) : result float :=
  if b =? 0 then Raise (ZeroDivisionError "division by zero")
  else
    let a' := Z.abs a in
    let b' := Z.abs b in
    let k := Z.max 0 (Z.log2 b' - Z.log2 a' + 55) in
    let n := a' * 2 ^ k in
    let m := 2 * (n / b') + (if n mod b' =? 0 then 0 else 1) in
    let neg := xorb (a <? 0) (b <? 0) in
    let f := SF2Prim (binary_normalize prec emax (if neg then - m else m) (- k - 1) neg) in
    if is_infinity f
    then Raise (OverflowError "integer division result too large for a float")
    else Ok f.

(** The value of a running [sum]: started at the int [0], it stays a number. *)
Inductive pynum : Type :=
  | NInt (z : Z)
  | NFloat (f : float).

Definition pynum_type (n : pynum) : string :=
  match n with
  | NInt _ => "int"
  | NFloat _ => "float"
  end.

Definition Z_of_bool (b : bool) : Z := if b then 1 else 0.

(** [acc + v]; [bool] is a subclass of [int]. *)
Definition py_add (acc : pynum) (v : pyval) : result pynum :=
  let unsupported :=
    Raise (TypeError ("unsupported operand type(s) for +: '" +:+ pynum_type acc
                        +:+ "' and '" +:+ type_name v +:+ "'")) in
  match acc, v with
  | NInt a, PyInt b => Ok (NInt (a + b))
  | NInt a, PyBool b => Ok (NInt (a + Z_of_bool b))
  | NInt a, PyFloat g => f ← float_of_int a; Ok (NFloat (f + g)%float)
  | NFloat f, PyInt b => g ← float_of_int b; Ok (NFloat (f + g)%float)
  | NFloat f, PyBool b => g ← float_of_int (Z_of_bool b); Ok (NFloat (f + g)%float)
  | NFloat f, PyFloat g => Ok (NFloat (f + g)%float)
  | _, _ => unsupported
  end.

(** [sum(vs, acc)]: the left fold of [+].  (On floats CPython 3.12 and
    later compensates the rounding errors of the fold; sums of ints are
    exact.) *)
Fixpoint py_sum (acc : pynum) (vs : list pyval) : result pynum :=
  match vs with
  | [] => Ok acc
  | v :: vs' => acc' ← py_add acc v; py_sum acc' vs'
  end.

(** [x / n] for an int [n]. *)
Definition py_truediv (x : pynum) (n : Z) : result float :=
  match x with
  | NInt a => int_truediv a n
  | NFloat f =>
      if n =? 0 then Raise (ZeroDivisionError "float division by zero")
      else g ← float_of_int n; Ok (f / g)%float
  end.

(** [[x] * n]: empty when [n <= 0]. *)
Definition py_list_mul {A} (x : A) (n : Z) : list A := replicate (Z.to_nat n) x.

(** [l[:n]]: a negative [n] counts from the end. *)
Definition py_slice_to {A} (l : list A) (n : Z) : list A :=
  if 0 <=? n then take (Z.to_nat n) l
  else take (Z.to_nat (Z.of_nat (length l) + n)) l.

(** [np.isfinite]. *)
Definition isfinite (p : float) : bool := negb (is_nan p || is_infinity p).

(** [np.isfinite(p) and p > 0]. *)
Definition positive_finite (p : float) : bool := isfinite p && (0 <? p)%float.

(** ** The data frame *)

(** A pandas timestamp: nanoseconds since the epoch, or not-a-time. *)
Inductive timestamp : Type :=
  | NaT
  | Timestamp (ns : Z).

(** A row of the frame [prepare_data] returns. *)
Record row := Row { unique_id : string; ds : timestamp; y : float }.

(** Ascending order, [NaT] last. *)
Definition ts_leb (a b : timestamp) : bool :=
  match a, b with
  | _, NaT => true
  | NaT, Timestamp _ => false
  | Timestamp m, Timestamp n => m <=? n
  end.

Fixpoint insert_row (r : row) (l : list row) : list row :=
  match l with
  | [] => [r]
  | x :: l' => if ts_leb (ds r) (ds x) then r :: x :: l' else x :: insert_row r l'
  end.

(** [df.sort_values('ds')]: ascending dates, missing dates last.  It is
    written as an insertion sort that keeps equal dates in input order;
    pandas' default sort does not fix the order of equal dates, and no
    property below depends on it. *)
Definition sort_values (df : list row) : list row := foldr insert_row [] df.

(** The order of two consecutive rows of a sorted frame. *)
Definition ds_le (a b : row) : Prop := ts_leb (ds a) (ds b) = true.

(** [pd.DataFrame(data)[key]]: the column exists when some record has
    the key, and the records without it hold NaN. *)
Definition column (key : string) (data : list record) : result (list pyval) :=
  if existsb (λ d : record, bool_decide (is_Some (d !! key))) data
  then Ok ((λ d : record, default (PyFloat nan) (d !! key)) <$> data)
  else Raise (KeyError key).

(** ** The libraries *)

(** pandas: [pd.to_datetime] and [astype(float)] on one cell (the column
    operation raises when a cell does), and [Series.mean]. *)
Class Pandas := {
  to_datetime : pyval → result timestamp;
  astype_float : pyval → result float;
  series_mean : list float → float
}.

(** The keyword arguments of [NHITS(...)]. *)
Record NHITS := {
  h : Z;
  input_size : Z;
  max_steps : Z;
  learning_rate : float;
  num_layers : Z;
  num_blocks : list Z;
  mlp_units : list (list Z);
  pooling_kernel_size : Z;
  n_freq_downsample : list Z;
  n_pool_kernel_size : Z;
  dropout_prob_theta : float;
  activation : string;
  futr_exog_list : option (list string);
  hist_exog_list : option (list string);
  stat_exog_list : option (list string);
  scaler_type : string;
  loss : string;
  valid_loss : string;
  num_lr_decays : Z;
  random_seed : Z
}.

(** neuralforecast: build [NeuralForecast(models=[model], freq='D')],
    [fit] it on the frame, [predict], and read the ['NHITS'] column as a
    list.  Any exception on the way is the [Raise] case. *)
Class NeuralForecast := {
  fit_predict : NHITS → list row → result (list float)
}.

(** ** The worker *)

(** The parsed request: [json.loads] of the standard input. *)
Record request := Request {
  historical_data : option (list record);
  horizon : option Z
}.

(** The JSON object printed on the standard output. *)
Record response := Response {
  success : bool;
  error : option string;
  predictions : list float;
  model : option string
}.

(** [input_data.get('historical_data', [])]. *)
Definition request_data (input_data : request) : list record :=
  default [] (historical_data input_data).

(** [input_data.get('horizon', 7)]. *)
Definition request_horizon (input_data : request) : Z :=
  default 7 (horizon input_data).

(** Which branch of [forecast] returns. *)
Inductive tier : Type := LearnedModel | Heuristic | LastFallback.

Section Worker.
Context {pd : Pandas} {nf : NeuralForecast}.

(** [prepare_data]: parse the dates, name the series, convert the
    revenue, sort by date and keep the three columns. *)
Definition prepare_data (data : list record) : result (list row) :=
  date ← column "date" data;
  ds_col ← mapM to_datetime date;
  revenue ← column "revenue" data;
  y_col ← mapM astype_float revenue;
  Ok (sort_values (zip_with (Row "revenue") ds_col y_col)).

(** The model [forecast] builds for a frame of [len_df] rows. *)
Definition nhits_model (horizon : Z) (len_df : nat) : NHITS :=
  {| h := horizon;
     input_size := Z.min 28 (Z.of_nat len_df - 1);
     max_steps := 100;
     learning_rate := 0x1.0624dd2f1a9fcp-10%float;
     num_layers := 2;
     num_blocks := [1; 1];
     mlp_units := [[512; 512]; [512; 512]];
     pooling_kernel_size := 2;
     n_freq_downsample := [2; 1];
     n_pool_kernel_size := 2;
     dropout_prob_theta := 0x1.999999999999ap-4%float;
     activation := "ReLU";
     futr_exog_list := None;
     hist_exog_list := None;
     stat_exog_list := None;
     scaler_type := "robust";
     loss := "MAE";
     valid_loss := "MAE";
     num_lr_decays := 3;
     random_seed := 42 |}.

(** The list comprehension that ends the model branch:
    [float(p) if np.isfinite(p) and p > 0 else float(df['y'].mean())]. *)
Definition validate (df : list row) (p : float) : float :=
  if positive_finite p then p else series_mean (y <$> df).

(** [sum(d.get('revenue', 0) for d in data) / len(data)]. *)
Definition raw_mean (data : list record) : result float :=
  total ← py_sum (NInt 0) ((λ d : record, default (PyInt 0) (d !! "revenue")) <$> data);
  py_truediv total (Z.of_nat (length data)).

(** The innermost handler: the mean of the raw revenue fields, a
    missing field counting as [0]; zeros when there is no record. *)
Definition last_fallback (data : list record) (horizon : Z) : result (list float) :=
  match data with
  | [] => Ok (py_list_mul 0%float horizon)
  | _ :: _ => avg ← raw_mean data; Ok (py_list_mul avg horizon)
  end.

Definition forecast (data : list record) (horizon : Z) : result (list float) :=
  try_except
    (df ← prepare_data data;
     if Z.of_nat (length df) <? 14 then
       let avg := series_mean (y <$> df) in
       Ok (py_list_mul avg horizon)
     else
       predictions ← fit_predict (nhits_model horizon (length df)) df;
       Ok (validate df <$> py_slice_to predictions horizon))
    (λ _,
       try_except
         (df ← prepare_data data;
          let avg := series_mean (y <$> df) in
          Ok (py_list_mul avg horizon))
         (λ _, last_fallback data horizon)).

(** The body of the [try] of the main block, from [input_data] on. *)
Definition main_body (input_data : request) : result response :=
  let historical_data := request_data input_data in
  let horizon := request_horizon input_data in
  match historical_data with
  | [] => Raise (ValueError "Empty historical data")
  | _ :: _ =>
      predictions ← forecast historical_data horizon;
      match predictions with
      | [] => Raise (ValueError "No predictions generated")
      | _ :: _ =>
          Ok {| success := true; error := None;
                predictions := predictions; model := Some "NHITS" |}
      end
  end.

(** The main block: the response and the exit status of the process. *)
Definition main (input_data : request) : response * Z :=
  match main_body input_data with
  | Ok result => (result, 0)
  | Raise e =>
      let error_msg := exn_type e +:+ ": " +:+ exn_msg e in
      ({| success := false; error := Some error_msg;
          predictions := []; model := None |}, 1)
  end.

(** *** Vocabulary of the specification *)

Definition parseable_date (d : record) : bool :=
  match d !! "date" with
  | Some v => is_ok (to_datetime v)
  | None => false
  end.

Definition numeric_revenue (d : record) : bool :=
  match d !! "revenue" with
  | Some v => is_ok (astype_float v)
  | None => false
  end.

Definition unparseable_date (d : record) : bool :=
  match d !! "date" with
  | Some v => negb (is_ok (to_datetime v))
  | None => false
  end.

(** Some record carries a date that [pd.to_datetime] rejects. *)
Definition has_malformed_date (data : list record) : bool :=
  existsb unparseable_date data.

(** Every record has a date that parses and a revenue that converts. *)
Definition well_formed (data : list record) : bool :=
  forallb (λ d, parseable_date d && numeric_revenue d) data.

(** The revenue values of the input, in input order. *)
Definition revenue_values (data : list record) : list float :=
  flat_map (λ d : record,
    match d !! "revenue" with
    | Some v => match astype_float v with Ok f => [f] | Raise _ => [] end
    | None => []
    end) data.

(** The branch of [forecast] that returns on [data]. *)
Definition tier_of (data : list record) (horizon : Z) : tier :=
  match prepare_data data with
  | Raise _ => LastFallback
  | Ok df =>
      if Z.of_nat (length df) <? 14 then Heuristic
      else if is_ok (fit_predict (nhits_model horizon (length df)) df)
           then LearnedModel else Heuristic
  end.

End Worker.

(** ** Reference libraries

    Stand-ins for the two libraries, to run the worker on concrete
    requests: dates in the [YYYY-MM-DD] form of the interface, revenue
    cells that are JSON numbers, a mean that skips NaN, and models that
    replay a recorded prediction vector or fail.  They are narrower than
    the libraries: pandas also reads other date formats, numbers as
    epoch offsets, and numeric strings as floats. *)

Module Reference.

Definition digit (c : ascii) : option Z :=
  let n := Z.of_N (N_of_ascii c) in
  if (48 <=? n) && (n <=? 57) then Some (n - 48) else None.

Fixpoint number (acc : Z) (cs : list ascii) : option Z :=
  match cs with
  | [] => Some acc
  | c :: cs' => d ← digit c; number (10 * acc + d) cs'
  end.

Definition is_leap (year : Z) : bool :=
  (year mod 4 =? 0) && (negb (year mod 100 =? 0) || (year mod 400 =? 0)).

Definition days_in_month (year month : Z) : Z :=
  if month =? 2 then (if is_leap year then 29 else 28)
  else if (month =? 4) || (month =? 6) || (month =? 9) || (month =? 11) then 30
  else 31.

(** Days from 1970-01-01 to a date of the proleptic Gregorian calendar. *)
Definition days_from_civil (year month day : Z) : Z :=
  let y' := if month <=? 2 then year - 1 else year in
  let era := y' / 400 in
  let yoe := y' - era * 400 in
  let doy := (153 * ((month + 9) mod 12) + 2) / 5 + day - 1 in
  let doe := yoe * 365 + yoe / 4 - yoe / 100 + doy in
  era * 146097 + doe - 719468.

Definition parse_error (s : string) : exn :=
  Exn "DateParseError" ("Unknown datetime string format, unable to parse: " +:+ s).

Definition iso_date (s : string) : result timestamp :=
  match list_ascii_of_string s with
  | [y1; y2; y3; y4; "-"%char; m1; m2; "-"%char; d1; d2] =>
      match number 0 [y1; y2; y3; y4], number 0 [m1; m2], number 0 [d1; d2] with
      | Some year, Some month, Some day =>
          let ns := days_from_civil year month day * 86400000000000 in
          if (1 <=? month) && (month <=? 12) && (1 <=? day)
             && (day <=? days_in_month year month)
             && (- 2 ^ 63 <? ns) && (ns <? 2 ^ 63)
          then Ok (Timestamp ns)
          else Raise (parse_error s)
      | _, _, _ => Raise (parse_error s)
      end
  | _ => Raise (parse_error s)
  end.

Definition ref_to_datetime (v : pyval) : result timestamp :=
  match v with
  | PyStr s => iso_date s
  | PyNone => Ok NaT
  | PyFloat f => if is_nan f then Ok NaT
                 else Raise (TypeError "unsupported cell for a date")
  | _ => Raise (TypeError ("<class '" +:+ type_name v +:+ "'> is not convertible to datetime"))
  end.

Definition ref_astype_float (v : pyval) : result float :=
  match v with
  | PyInt z => float_of_int z
  | PyBool b => float_of_int (Z_of_bool b)
  | PyFloat f => Ok f
  | PyNone => Ok nan
  | PyStr s => Raise (ValueError ("could not convert string to float: '" +:+ s +:+ "'"))
  | _ => Raise (TypeError ("float() argument must be a string or a real number, not '"
                             +:+ type_name v +:+ "'"))
  end.

(** The mean of the cells that are not NaN; NaN when there is none. *)
Definition nanmean (ys : list float) : float :=
  let vals := List.filter (λ v, negb (is_nan v)) ys in
  match vals with
  | [] => nan
  | _ :: _ =>
      (foldl PrimFloat.add 0 vals
       / SF2Prim (binary_normalize prec emax (Z.of_nat (length vals)) 0 false))%float
  end.

#[global] Instance pandas : Pandas :=
  {| to_datetime := ref_to_datetime;
     astype_float := ref_astype_float;
     series_mean := nanmean |}.

(** A model that returns the recorded vector when it has [h] entries. *)
Definition replay (raw : list float) : NeuralForecast :=
  {| fit_predict := λ m _,
       if (0 <? h m) && (0 <? input_size m) && (Z.of_nat (length raw) =? h m)
       then Ok raw
       else Raise (ValueError "recorded predictions do not fit the horizon") |}.

(** A model whose training fails. *)
Definition failing : NeuralForecast :=
  {| fit_predict := λ _ _, Raise (Exn "RuntimeError" "training failed") |}.

(** A day of history. *)
Definition day (date : string) (revenue : pyval) : record :=
  {[ "date" := PyStr date; "revenue" := revenue ]}.

(** The five observations of the specification's example. *)
Definition five_days : list record :=
  [ day "2024-01-01" (PyInt 100); day "2024-01-02" (PyInt 110);
    day "2024-01-03" (PyInt 90); day "2024-01-04" (PyInt 105);
    day "2024-01-05" (PyInt 95) ].

(** Fourteen days of January 2024 with the same revenue. *)
Definition fortnight (revenue : pyval) : list record :=
  (λ d, day ("2024-01-" +:+ d) revenue)
    <$> ["01"; "02"; "03"; "04"; "05"; "06"; "07";
         "08"; "09"; "10"; "11"; "12"; "13"; "14"].

(** The frame the reference pandas builds; empty when it raises. *)
Definition frame_of (data : list record) : list row :=
  match prepare_data data with
  | Ok df => df
  | Raise _ => []
  end.

End Reference.

(** The library contract of [NeuralForecast.predict]: [h] rows for the
    single series of the frame. *)
Definition predict_contract (nf : NeuralForecast) : Prop :=
  ∀ m df raw, fit_predict m df = Ok raw → length raw = Z.to_nat (h m).

(** The response of a failed run. *)
Definition failure (e : exn) : response * Z :=
  ({| success := false; error := Some (exn_type e +:+ ": " +:+ exn_msg e);
      predictions := []; model := None |}, 1).

(** The response of a successful run. *)
Definition succeeded (preds : list float) : response * Z :=
  ({| success := true; error := None; predictions := preds;
      model := Some "NHITS" |}, 0).

(** * The weather loader (scripts/load_weather.py)

    The pure part of the loader: [to_number] and [build_rows], which turn
    the [daily] object of the archive's answer into the rows to upsert.
    The HTTP request and the database are outside the embedding. *)

Module Weather.

(** [datetime.date]. *)
Record date := Date { year : Z; month : Z; day : Z }.

Definition IndexError (msg : string) : exn := Exn "IndexError" msg.

(** The integer nearest to [n / d] for [0 <= n] and [0 < d], ties to even. *)
Definition round_half_even (n d : Z) : Z :=
  let q := n / d in
  match 2 * (n mod d) ?= d with
  | Lt => q
  | Gt => q + 1
  | Eq => if Z.even q then q else q + 1
  end.

(** [round(x, ndigits)] on a float, for [0 <= ndigits]: the exact value
    of [x] is rounded to a multiple of [10 ** -ndigits], ties to even,
    and that decimal is converted back to the nearest float.  NaN, the
    infinities and the zeros are returned as they are. *)
Definition py_round (x : float) (ndigits : Z) : result float :=
  match Prim2SF x with
  | S754_finite s m e =>
      let n := Zpos m * 10 ^ ndigits in
      let q := if 0 <=? e then n * 2 ^ e else round_half_even n (2 ^ (- e)) in
      match int_truediv q (10 ^ ndigits) with
      | Ok f => Ok (if s then - f else f)%float
      | Raise _ => Raise (OverflowError "rounded value too large to represent")
      end
  | _ => Ok x
  end.

(** The two functions of the standard library that read text:
    [datetime.date.fromisoformat] and [float] on a string. *)
Class Builtins := {
  fromisoformat : pyval → result date;
  float_of_str : string → result float
}.

(** One row of [analytics.weather_daily], in the order of the columns of
    the [INSERT]; a [None] measurement is a SQL [NULL]. *)
Record weather_row := WeatherRow {
  weather_date : date;
  location : string;
  temp_min_c : option float;
  temp_max_c : option float;
  temp_avg_c : option float;
  precipitation_mm : option float;
  snowfall_cm : option float;
  wind_max_ms : option float
}.

(** [d[key]] on a dict. *)
Definition getitem {V} (d : gmap string V) (key : string) : result V :=
  match d !! key with
  | Some v => Ok v
  | None => Raise (KeyError key)
  end.

(** [l[idx]] for an index that is not negative. *)
Definition index {V} (l : list V) (idx : nat) : result V :=
  match l !! idx with
  | Some v => Ok v
  | None => Raise (IndexError "list index out of range")
  end.

(** The measurement columns [build_rows] reads, in the order it reads them. *)
Definition measurement_keys : list string :=
  [ "temperature_2m_min"; "temperature_2m_max"; "temperature_2m_mean";
    "precipitation_sum"; "snowfall_sum"; "windspeed_10m_max" ].

Section Loader.
Context {py : Builtins}.

(** [float(value)]. *)
Definition py_float (value : pyval) : result float :=
  match value with
  | PyFloat f => Ok f
  | PyInt z => float_of_int z
  | PyBool b => float_of_int (Z_of_bool b)
  | PyStr s => float_of_str s
  | _ => Raise (TypeError ("float() argument must be a string or a real number, not '"
                             +:+ type_name value +:+ "'"))
  end.

Definition to_number (value : pyval) : result (option float) :=
  match value with
  | PyNone => Ok None
  | _ => x ← py_float value; rounded ← py_round x 2; Ok (Some rounded)
  end.

(** [to_number(daily[key][idx])]. *)
Definition measurement (daily : gmap string (list pyval)) (key : string) (idx : nat)
    : result (option float) :=
  col ← getitem daily key;
  value ← index col idx;
  to_number value.

(** The tuple appended for the entry [idx] of [daily["time"]]. *)
Definition build_row (daily : gmap string (list pyval)) (idx : nat) (raw_date : pyval)
    : result weather_row :=
  weather_date ← fromisoformat raw_date;
  temp_min_c ← measurement daily "temperature_2m_min" idx;
  temp_max_c ← measurement daily "temperature_2m_max" idx;
  temp_avg_c ← measurement daily "temperature_2m_mean" idx;
  precipitation_mm ← measurement daily "precipitation_sum" idx;
  snowfall_cm ← measurement daily "snowfall_sum" idx;
  wind_max_ms ← measurement daily "windspeed_10m_max" idx;
  Ok {| weather_date := weather_date; location := "Lipetsk,RU";
        temp_min_c := temp_min_c; temp_max_c := temp_max_c;
        temp_avg_c := temp_avg_c; precipitation_mm := precipitation_mm;
        snowfall_cm := snowfall_cm; wind_max_ms := wind_max_ms |}.

(** The loop over [enumerate(daily["time"])], from the index [idx] on. *)
Fixpoint build_rows_from (daily : gmap string (list pyval)) (idx : nat)
    (time : list pyval) : result (list weather_row) :=
  match time with
  | [] => Ok []
  | raw_date :: time' =>
      r ← build_row daily idx raw_date;
      rows ← build_rows_from daily (S idx) time';
      Ok (r :: rows)
  end.

Definition build_rows (daily : gmap string (list pyval)) : result (list weather_row) :=
  time ← getitem daily "time";
  build_rows_from daily 0 time.

(** The field of a row that holds the measurement of a column. *)
Definition field_of (key : string) (r : weather_row) : option float :=
  if String.eqb key "temperature_2m_min" then temp_min_c r
  else if String.eqb key "temperature_2m_max" then temp_max_c r
  else if String.eqb key "temperature_2m_mean" then temp_avg_c r
  else if String.eqb key "precipitation_sum" then precipitation_mm r
  else if String.eqb key "snowfall_sum" then snowfall_cm r
  else wind_max_ms r.

End Loader.

(** A stand-in for the standard library: dates in the [YYYY-MM-DD] form
    with a year from 1 to 9999, and no string is read as a float. *)
Definition ref_fromisoformat (v : pyval) : result date :=
  match v with
  | PyStr s =>
      let invalid := Raise (ValueError ("Invalid isoformat string: '" +:+ s +:+ "'")) in
      match list_ascii_of_string s with
      | [y1; y2; y3; y4; "-"%char; m1; m2; "-"%char; d1; d2] =>
          match Reference.number 0 [y1; y2; y3; y4], Reference.number 0 [m1; m2],
                Reference.number 0 [d1; d2] with
          | Some yy, Some mm, Some dd =>
              if (1 <=? yy) && (1 <=? mm) && (mm <=? 12) && (1 <=? dd)
                 && (dd <=? Reference.days_in_month yy mm)
              then Ok (Date yy mm dd)
              else invalid
          | _, _, _ => invalid
          end
      | _ => invalid
      end
  | _ => Raise (TypeError "fromisoformat: argument must be str")
  end.

#[global] Instance builtins : Builtins :=
  {| fromisoformat := ref_fromisoformat;
     float_of_str := λ s,
       Raise (ValueError ("could not convert string to float: '" +:+ s +:+ "'")) |}.

(** The rows the reference builds; none when it raises. *)
Definition rows_of (daily : gmap string (list pyval)) : list weather_row :=
  match build_rows daily with
  | Ok rows => rows
  | Raise _ => []
  end.

#[local] Set Warnings "-inexact-float".
(** Three days of an archive answer; the second day has no snowfall
    value and the wind column carries one entry too many. *)
Definition three_days : gmap string (list pyval) :=
  {[ "time" := [PyStr "2024-01-01"; PyStr "2024-01-02"; PyStr "2024-01-03"];
     "temperature_2m_min" := [PyFloat (-7.345); PyFloat (-5.1); PyInt (-3)];
     "temperature_2m_max" := [PyFloat (-1.005); PyFloat 0.125; PyFloat 2.675];
     "temperature_2m_mean" := [PyFloat (-4.2); PyFloat (-2.5); PyFloat 0.4];
     "precipitation_sum" := [PyFloat 0.0; PyFloat 1.25; PyInt 3];
     "snowfall_sum" := [PyFloat 0.7; PyNone; PyFloat 0.0];
     "windspeed_10m_max" := [PyFloat 4.4; PyFloat 6.1; PyFloat 3.9; PyFloat 9.9] ]}.

End Weather.

(** A model that refuses every window outside of 13..28 or not shorter
    than the frame, and otherwise answers as [nf] does. *)
Definition windowed (nf : NeuralForecast) : NeuralForecast :=
  {| fit_predict := λ m df,
       if (13 <=? input_size m) && (input_size m <=? 28)
          && (input_size m <? Z.of_nat (length df))
       then fit_predict m df
       else Raise (ValueError "input_size out of range") |}.

#[global] Instance timestamp_eq_dec : EqDecision timestamp.
Proof. solve_decision. Defined.


(** * Properties *)

(** ** The result monad and the list primitives *)

Section Primitives.
Context {A B : Type}.
Implicit Types (f : A → result B) (l : list A).

Lemma bind_ok f a : Ok a ≫= f = f a.
Proof. reflexivity. Qed.

Lemma bind_raise f e : Raise e ≫= f = Raise e.
Proof. reflexivity. Qed.

Lemma mapM_cons f x l :
  mapM f (x :: l) = z ← f x; k ← mapM f l; Ok (z :: k).
Proof. reflexivity. Qed.

Lemma mapM_ok_Forall2 f l k :
  mapM f l = Ok k → Forall2 (λ x z, f x = Ok z) l k.
Proof.
  revert k. induction l as [|x l IH]; intros k; simpl.
  - intros [= <-]. constructor.
  - destruct (f x) as [z|e] eqn:Hx; simpl; [|discriminate].
    destruct (mapM f l) as [k'|e] eqn:Hl; simpl; [|discriminate].
    intros [= <-]. constructor; auto.
Qed.

Lemma mapM_ok_length f l k : mapM f l = Ok k → length k = length l.
Proof. intros Hk. symmetry. exact (Forall2_length _ _ _ (mapM_ok_Forall2 _ _ _ Hk)). Qed.

Lemma mapM_all_ok f l :
  Forall (λ x, is_ok (f x) = true) l → ∃ k, mapM f l = Ok k.
Proof.
  induction 1 as [|x l Hx _ [k IH]]; simpl; [by eexists|].
  destruct (f x) as [z|e]; [|discriminate]. rewrite IH. by eexists.
Qed.

Lemma mapM_raise f l x :
  x ∈ l → is_ok (f x) = false → ∃ e, mapM f l = Raise e.
Proof.
  induction 1 as [x l|x x' l _ IH]; intros Hx; simpl.
  - destruct (f x) as [z|e]; [discriminate|]. by eexists.
  - destruct (f x') as [z|e]; simpl; [|by eexists].
    destruct (IH Hx) as [e ->]. by eexists.
Qed.
End Primitives.

Lemma py_list_mul_length {A} (x : A) (n : Z) :
  length (py_list_mul x n) = Z.to_nat n.
Proof. apply length_replicate. Qed.

Lemma py_list_mul_nonpos {A} (x : A) (n : Z) : n ≤ 0 → py_list_mul x n = [].
Proof. intros Hn. unfold py_list_mul. by replace (Z.to_nat n) with 0%nat by lia. Qed.

Lemma py_list_mul_pos {A} (x : A) (n : Z) :
  0 < n → ∃ l, py_list_mul x n = x :: l.
Proof.
  intros Hn. unfold py_list_mul.
  destruct (Z.to_nat n) as [|k] eqn:Hk; [lia|]. by eexists.
Qed.

Lemma py_slice_to_exact {A} (l : list A) (n : Z) :
  length l = Z.to_nat n → py_slice_to l n = l.
Proof.
  intros Hl. unfold py_slice_to. destruct (0 <=? n) eqn:Hn.
  - rewrite <- Hl. apply firstn_all.
  - apply Z.leb_gt in Hn. destruct l as [|x l]; [apply firstn_nil|]. simpl in Hl. lia.
Qed.

(** ** Sorting keeps the rows *)

Lemma insert_row_perm r l : insert_row r l ≡ₚ r :: l.
Proof.
  induction l as [|x l IH]; simpl; [done|].
  destruct (ts_leb (ds r) (ds x)); [done|].
  rewrite IH. apply Permutation_swap.
Qed.

Lemma sort_values_perm df : sort_values df ≡ₚ df.
Proof.
  induction df as [|r df IH]; simpl; [done|].
  rewrite insert_row_perm. by constructor.
Qed.

Lemma sort_values_length df : length (sort_values df) = length df.
Proof. apply Permutation_length, sort_values_perm. Qed.

(** ** Sorting orders the rows by date *)

Lemma ts_leb_total a b : ts_leb a b = false → ts_leb b a = true.
Proof.
  destruct a as [|m], b as [|n]; simpl; try done.
  intros Hmn. apply Z.leb_gt in Hmn. apply Z.leb_le. lia.
Qed.

Lemma insert_row_HdRel a r l :
  ds_le a r → HdRel ds_le a l → HdRel ds_le a (insert_row r l).
Proof.
  intros Har Hal. destruct l as [|x l]; simpl; [by constructor|].
  destruct (ts_leb (ds r) (ds x)); constructor; [done|].
  by inversion Hal.
Qed.

Lemma insert_row_sorted r l : Sorted ds_le l → Sorted ds_le (insert_row r l).
Proof.
  induction 1 as [|x l Hl IH Hx]; simpl; [by repeat constructor|].
  destruct (ts_leb (ds r) (ds x)) eqn:Hrx.
  - constructor; [by constructor|]. by constructor.
  - constructor; [done|]. apply insert_row_HdRel; [|done].
    by apply ts_leb_total.
Qed.

Lemma sort_values_sorted df : Sorted ds_le (sort_values df).
Proof.
  induction df as [|r df IH]; simpl; [constructor|]. by apply insert_row_sorted.
Qed.

(** ** Normalization *)

Section Normalization.
Context {pd : Pandas}.
Implicit Types (d : record) (data : list record).

Lemma column_ok key d data :
  d ∈ data → is_Some (d !! key) →
  column key data = Ok ((λ d : record, default (PyFloat nan) (d !! key)) <$> data).
Proof.
  intros Hd Hk. unfold column.
  replace (existsb _ data) with true; [done|].
  symmetry. apply existsb_exists. exists d. split.
  - by apply list_elem_of_In.
  - by apply bool_decide_eq_true.
Qed.

Lemma column_empty key : column key [] = Raise (KeyError key).
Proof. reflexivity. Qed.

Lemma well_formed_cons d data :
  well_formed (d :: data) = true ↔
  (parseable_date d = true ∧ numeric_revenue d = true) ∧ well_formed data = true.
Proof. unfold well_formed. simpl. by rewrite !andb_true_iff. Qed.

Lemma dates_parse data :
  well_formed data = true →
  ∃ ds_col,
    mapM to_datetime ((λ d : record, default (PyFloat nan) (d !! "date")) <$> data)
    = Ok ds_col.
Proof.
  intros Hwf. apply mapM_all_ok.
  induction data as [|d data IH]; simpl; constructor.
  - apply well_formed_cons in Hwf as [[Hd _] _].
    unfold parseable_date in Hd. by destruct (d !! "date").
  - apply IH. by apply well_formed_cons in Hwf as [_ ?].
Qed.

Lemma revenues_convert data :
  well_formed data = true →
  mapM astype_float ((λ d : record, default (PyFloat nan) (d !! "revenue")) <$> data)
  = Ok (revenue_values data).
Proof.
  induction data as [|d data IH]; intros Hwf; [done|].
  apply well_formed_cons in Hwf as [[_ Hd] Hwf].
  unfold numeric_revenue in Hd. rewrite fmap_cons, mapM_cons, (IH Hwf). simpl.
  destruct (d !! "revenue") as [v|]; simpl; [|discriminate].
  by destruct (astype_float v).
Qed.

Lemma y_zip_with (ds_col : list timestamp) (y_col : list float) :
  length ds_col = length y_col →
  y <$> zip_with (Row "revenue") ds_col y_col = y_col.
Proof.
  revert y_col. induction ds_col as [|t ds_col IH]; intros [|f y_col]; simpl;
    try done.
  intros [= Hlen]. by rewrite IH.
Qed.

(** A well-formed, non-empty input is normalized: one row per record,
    carrying the revenue values of the input. *)
Lemma prepare_data_well_formed data :
  well_formed data = true → data ≠ [] →
  ∃ df, prepare_data data = Ok df ∧ length df = length data
        ∧ y <$> df ≡ₚ revenue_values data.
Proof.
  intros Hwf Hne. destruct data as [|d data]; [done|].
  pose proof Hwf as Hd. apply well_formed_cons in Hd as [[Hdate Hrev] _].
  unfold parseable_date in Hdate. unfold numeric_revenue in Hrev.
  destruct (dates_parse _ Hwf) as [ds_col Hds].
  pose proof (revenues_convert _ Hwf) as Hys.
  pose proof (mapM_ok_length _ _ _ Hds) as Hlds.
  pose proof (mapM_ok_length _ _ _ Hys) as Hlys.
  rewrite length_fmap in Hlds, Hlys.
  unfold prepare_data.
  rewrite (column_ok "date" d); [|by left|by destruct (d !! "date")].
  rewrite bind_ok, Hds, bind_ok.
  rewrite (column_ok "revenue" d); [|by left|by destruct (d !! "revenue")].
  rewrite bind_ok, Hys, bind_ok.
  eexists. split; [done|]. split.
  - rewrite sort_values_length, length_zip_with. lia.
  - rewrite sort_values_perm, y_zip_with; [done|lia].
Qed.

(** A date that does not parse makes the normalization raise. *)
Lemma prepare_data_malformed_date data :
  has_malformed_date data = true → ∃ e, prepare_data data = Raise e.
Proof.
  intros Hbad. apply existsb_exists in Hbad as (d & Hd & Hbad).
  apply list_elem_of_In in Hd. unfold unparseable_date in Hbad.
  destruct (d !! "date") as [v|] eqn:Hv; [|discriminate].
  apply negb_true_iff in Hbad.
  unfold prepare_data. rewrite (column_ok "date" d); [|done|by rewrite Hv].
  rewrite bind_ok.
  destruct (mapM_raise to_datetime
              ((λ d : record, default (PyFloat nan) (d !! "date")) <$> data) v)
    as [e ->]; [|done|by eexists].
  apply list_elem_of_fmap. exists d. by rewrite Hv.
Qed.
End Normalization.

(** ** The branches of [forecast] *)

Section Forecast.
Context {pd : Pandas} {nf : NeuralForecast}.
Implicit Types (d : record) (data : list record) (df : list row).
Implicit Types (horizon : Z) (req : request).

(** Below the threshold the mean of the frame is repeated. *)
Lemma forecast_short data df horizon :
  prepare_data data = Ok df → (length df < 14)%nat →
  forecast data horizon = Ok (py_list_mul (series_mean (y <$> df)) horizon).
Proof.
  intros Hdf Hlen. unfold forecast. rewrite Hdf, bind_ok.
  by replace (Z.of_nat (length df) <? 14) with true by (symmetry; apply Z.ltb_lt; lia).
Qed.

(** At or above it, a model that returns has its output validated. *)
Lemma forecast_model_ok data df horizon raw :
  prepare_data data = Ok df → (14 ≤ length df)%nat →
  fit_predict (nhits_model horizon (length df)) df = Ok raw →
  forecast data horizon = Ok (validate df <$> py_slice_to raw horizon).
Proof.
  intros Hdf Hlen Hraw. unfold forecast. rewrite Hdf, bind_ok.
  replace (Z.of_nat (length df) <? 14) with false by (symmetry; apply Z.ltb_ge; lia).
  by rewrite Hraw.
Qed.

(** A model that raises is caught by the outer handler. *)
Lemma forecast_model_raise data df horizon e :
  prepare_data data = Ok df → (14 ≤ length df)%nat →
  fit_predict (nhits_model horizon (length df)) df = Raise e →
  forecast data horizon = Ok (py_list_mul (series_mean (y <$> df)) horizon).
Proof.
  intros Hdf Hlen Hraw. unfold forecast. rewrite Hdf, bind_ok.
  replace (Z.of_nat (length df) <? 14) with false by (symmetry; apply Z.ltb_ge; lia).
  by rewrite Hraw.
Qed.

(** When the normalization raises, it raises again in the handler and
    the innermost handler answers. *)
Lemma forecast_unprepared data horizon e :
  prepare_data data = Raise e → forecast data horizon = last_fallback data horizon.
Proof. intros Hdf. unfold forecast. by rewrite Hdf. Qed.

Lemma forecast_empty horizon : forecast [] horizon = Ok (py_list_mul 0%float horizon).
Proof. reflexivity. Qed.

(** [tier_of] names the branch that computes the result. *)
Lemma tier_of_spec data horizon :
  match tier_of data horizon with
  | Heuristic =>
      ∃ df, prepare_data data = Ok df
            ∧ forecast data horizon = Ok (py_list_mul (series_mean (y <$> df)) horizon)
  | LearnedModel =>
      ∃ df raw, prepare_data data = Ok df ∧ (14 ≤ length df)%nat
            ∧ fit_predict (nhits_model horizon (length df)) df = Ok raw
            ∧ forecast data horizon = Ok (validate df <$> py_slice_to raw horizon)
  | LastFallback => forecast data horizon = last_fallback data horizon
  end.
Proof.
  unfold tier_of. destruct (prepare_data data) as [df|e] eqn:Hdf.
  - destruct (Z.of_nat (length df) <? 14) eqn:Hlen.
    + apply Z.ltb_lt in Hlen. exists df. split; [done|].
      apply forecast_short; [done|lia].
    + apply Z.ltb_ge in Hlen.
      destruct (fit_predict (nhits_model horizon (length df)) df) as [raw|e] eqn:Hraw;
        simpl.
      * exists df, raw. repeat split; [lia|done|].
        apply forecast_model_ok; [done|lia|done].
      * exists df. split; [done|].
        eapply forecast_model_raise; [done|lia|done].
  - by eapply forecast_unprepared.
Qed.

Lemma tier_of_prepared data horizon df :
  prepare_data data = Ok df → tier_of data horizon ≠ LastFallback.
Proof.
  intros Hdf. unfold tier_of. rewrite Hdf.
  destruct (Z.of_nat (length df) <? 14); [done|].
  by destruct (is_ok _).
Qed.

(** *** The main block *)

Lemma main_empty req :
  request_data req = [] → main req = failure (ValueError "Empty historical data").
Proof. intros Hd. unfold main, main_body. by rewrite Hd. Qed.

Lemma main_ok req p preds :
  request_data req ≠ [] →
  forecast (request_data req) (request_horizon req) = Ok (p :: preds) →
  main req = succeeded (p :: preds).
Proof.
  intros Hd Hf. unfold main, main_body.
  destruct (request_data req); [done|]. by rewrite Hf.
Qed.

Lemma main_no_predictions req :
  request_data req ≠ [] →
  forecast (request_data req) (request_horizon req) = Ok [] →
  main req = failure (ValueError "No predictions generated").
Proof.
  intros Hd Hf. unfold main, main_body.
  destruct (request_data req); [done|]. by rewrite Hf.
Qed.

Lemma main_raise req e :
  request_data req ≠ [] →
  forecast (request_data req) (request_horizon req) = Raise e →
  main req = failure e.
Proof.
  intros Hd Hf. unfold main, main_body.
  destruct (request_data req); [done|]. by rewrite Hf.
Qed.

Lemma validate_cases df p :
  (positive_finite p = true ∧ validate df p = p)
  ∨ (positive_finite p = false ∧ validate df p = series_mean (y <$> df)).
Proof. unfold validate. destruct (positive_finite p); auto. Qed.
End Forecast.

(** ** The reference libraries at work *)

Lemma day_date date v : Reference.day date v !! "date" = Some (PyStr date).
Proof. reflexivity. Qed.

Lemma day_revenue date v : Reference.day date v !! "revenue" = Some v.
Proof. reflexivity. Qed.

Lemma replay_contract raw : predict_contract (Reference.replay raw).
Proof.
  intros m df raw'. simpl.
  destruct ((0 <? h m) && (0 <? input_size m)) eqn:Hpos; simpl; [|discriminate].
  destruct (Z.of_nat (length raw) =? h m) eqn:Hlen; [|discriminate].
  intros [= <-]. apply Z.eqb_eq in Hlen. lia.
Qed.

Lemma failing_contract : predict_contract Reference.failing.
Proof. intros m df raw. discriminate. Qed.

(** The example of the specification: five observations, horizon 3. *)
Example forecast_five_days (nf : NeuralForecast) :
  forecast Reference.five_days 3 = Ok [100%float; 100%float; 100%float].
Proof. reflexivity. Qed.

(** ** The claims *)

(** C3. For every non-empty well-formed input of fewer than 14 records
    and every horizon, [forecast] returns horizon copies of the mean of
    the normalized series, whose values are the revenue values of the
    input; the model is not consulted, whatever it is. *)
Theorem short_series_mean (pd : Pandas) (nf : NeuralForecast)
    (data : list record) (horizon : Z) :
  well_formed data = true → data ≠ [] → (length data < 14)%nat →
  ∃ df, prepare_data data = Ok df
        ∧ y <$> df ≡ₚ revenue_values data
        ∧ forecast data horizon
          = Ok (replicate (Z.to_nat horizon) (series_mean (y <$> df))).
Proof.
  intros Hwf Hne Hlen.
  destruct (prepare_data_well_formed data Hwf Hne) as (df & Hdf & Hldf & Hperm).
  exists df. repeat split; [done..|].
  apply forecast_short; [done|lia].
Qed.

Lemma short_series_mean_witness :
  ∃ df, prepare_data Reference.five_days = Ok df
        ∧ y <$> df ≡ₚ revenue_values Reference.five_days
        ∧ forecast (nf:=Reference.failing) Reference.five_days 3
          = Ok (replicate (Z.to_nat 3) (series_mean (y <$> df))).
Proof.
  apply (short_series_mean Reference.pandas Reference.failing Reference.five_days 3).
  - reflexivity.
  - discriminate.
  - simpl. lia.
Defined.

(** C2. For every non-empty well-formed input and every positive
    horizon, the worker answers [success: true] with exactly horizon
    predictions and exits with status 0, given that a prediction of the
    library has [h] rows. *)
Theorem well_formed_success_length (pd : Pandas) (nf : NeuralForecast)
    (req : request) :
  well_formed (request_data req) = true → request_data req ≠ [] →
  0 < request_horizon req → predict_contract nf →
  ∃ preds, main req = succeeded preds
           ∧ length preds = Z.to_nat (request_horizon req).
Proof.
  intros Hwf Hne Hpos Hnf.
  set (data := request_data req) in *. set (horizon := request_horizon req) in *.
  assert (∃ preds, forecast data horizon = Ok preds
                   ∧ length preds = Z.to_nat horizon) as (preds & Hf & Hlen).
  { destruct (prepare_data_well_formed data Hwf Hne) as (df & Hdf & _ & _).
    pose proof (tier_of_spec data horizon) as Ht.
    pose proof (tier_of_prepared data horizon df Hdf) as Hprep.
    destruct (tier_of data horizon).
    - destruct Ht as (df' & raw & _ & _ & Hraw & ->).
      eexists. split; [done|].
      apply Hnf in Hraw. simpl in Hraw.
      by rewrite length_fmap, py_slice_to_exact.
    - destruct Ht as (df' & _ & ->). eexists. split; [done|].
      apply py_list_mul_length.
    - done. }
  exists preds. split; [|done].
  destruct preds as [|p preds]; [simpl in Hlen; lia|].
  by apply main_ok.
Qed.

Lemma well_formed_success_length_witness :
  ∃ preds,
    main (nf:=Reference.replay [120%float; 95%float])
      (Request (Some (Reference.fortnight (PyInt 100))) (Some 2))
    = succeeded preds
    ∧ length preds = Z.to_nat 2.
Proof.
  apply (well_formed_success_length Reference.pandas
           (Reference.replay [120%float; 95%float])
           (Request (Some (Reference.fortnight (PyInt 100))) (Some 2))).
  - reflexivity.
  - discriminate.
  - reflexivity.
  - apply replay_contract.
Defined.

(** C7. For every well-formed series of at least 14 records, when the
    model raises, [forecast] returns horizon copies of the mean of the
    normalized series instead of the exception, and for a positive
    horizon the worker reports success with them. *)
Theorem model_failure_recovered (pd : Pandas) (nf : NeuralForecast)
    (data : list record) (horizon : Z) (df : list row) (e : exn) :
  well_formed data = true → (14 ≤ length data)%nat →
  prepare_data data = Ok df →
  fit_predict (nhits_model horizon (length df)) df = Raise e →
  forecast data horizon = Ok (replicate (Z.to_nat horizon) (series_mean (y <$> df)))
  ∧ (0 < horizon →
     main (Request (Some data) (Some horizon))
     = succeeded (replicate (Z.to_nat horizon) (series_mean (y <$> df)))).
Proof.
  intros Hwf Hlen Hdf Hraise.
  assert (data ≠ []) as Hne by (intros ->; simpl in Hlen; lia).
  destruct (prepare_data_well_formed data Hwf Hne) as (df' & Hdf' & Hldf & _).
  rewrite Hdf in Hdf'. injection Hdf' as <-.
  assert (forecast data horizon
          = Ok (py_list_mul (series_mean (y <$> df)) horizon)) as Hf.
  { eapply forecast_model_raise; [done|lia|done]. }
  split; [done|]. intros Hpos.
  destruct (py_list_mul_pos (series_mean (y <$> df)) horizon Hpos) as [l Hl].
  fold (py_list_mul (series_mean (y <$> df)) horizon). rewrite Hl.
  apply main_ok; [done|].
  change (forecast data horizon = Ok (series_mean (y <$> df) :: l)).
  by rewrite Hf, Hl.
Qed.

Lemma model_failure_recovered_witness :
  let data := Reference.fortnight (PyInt 100) in
  let df := Reference.frame_of data in
  forecast (nf:=Reference.failing) data 7
  = Ok (replicate (Z.to_nat 7) (series_mean (y <$> df)))
  ∧ (0 < 7 →
     main (nf:=Reference.failing) (Request (Some data) (Some 7))
     = succeeded (replicate (Z.to_nat 7) (series_mean (y <$> df)))).
Proof.
  apply (model_failure_recovered Reference.pandas Reference.failing
           (Reference.fortnight (PyInt 100)) 7
           (Reference.frame_of (Reference.fortnight (PyInt 100)))
           (Exn "RuntimeError" "training failed")).
  - reflexivity.
  - simpl. lia.
  - reflexivity.
  - reflexivity.
Defined.

(** C10. For every non-empty well-formed input and every horizon that is
    zero or negative, [forecast] returns the empty list and the worker
    answers [success: false] with no predictions and exits with status
    1, given that a prediction of the library has [h] rows. *)
Theorem nonpositive_horizon_rejected (pd : Pandas) (nf : NeuralForecast)
    (data : list record) (horizon : Z) :
  well_formed data = true → data ≠ [] → horizon ≤ 0 → predict_contract nf →
  forecast data horizon = Ok []
  ∧ main (Request (Some data) (Some horizon))
    = ({| success := false;
          error := Some "ValueError: No predictions generated";
          predictions := []; model := None |}, 1).
Proof.
  intros Hwf Hne Hneg Hnf.
  assert (forecast data horizon = Ok []) as Hf.
  { destruct (prepare_data_well_formed data Hwf Hne) as (df & Hdf & _ & _).
    pose proof (tier_of_spec data horizon) as Ht.
    pose proof (tier_of_prepared data horizon df Hdf) as Hprep.
    destruct (tier_of data horizon).
    - destruct Ht as (df' & raw & _ & _ & Hraw & ->).
      apply Hnf in Hraw. simpl in Hraw.
      replace (Z.to_nat horizon) with 0%nat in Hraw by lia.
      destruct raw; [|done]. unfold py_slice_to.
      by destruct (0 <=? horizon); rewrite firstn_nil.
    - destruct Ht as (df' & _ & ->). by rewrite py_list_mul_nonpos.
    - done. }
  split; [done|]. by apply (main_no_predictions (Request (Some data) (Some horizon))).
Qed.

Lemma nonpositive_horizon_rejected_witness :
  forecast (nf:=Reference.failing) Reference.five_days (-2) = Ok []
  ∧ main (nf:=Reference.failing) (Request (Some Reference.five_days) (Some (-2)))
    = ({| success := false;
          error := Some "ValueError: No predictions generated";
          predictions := []; model := None |}, 1).
Proof.
  apply (nonpositive_horizon_rejected Reference.pandas Reference.failing
           Reference.five_days (-2)).
  - reflexivity.
  - discriminate.
  - lia.
  - apply failing_contract.
Defined.

(** C8. When [historical_data] is empty or absent, the worker answers
    [success: false] with no predictions and exits with status 1; the
    answer is the guard's own error, whatever the libraries and the
    horizon are, so no forecast is attempted. *)
Theorem empty_history_rejected (pd : Pandas) (nf : NeuralForecast)
    (horizon : option Z) :
  main (Request None horizon)
  = ({| success := false; error := Some "ValueError: Empty historical data";
        predictions := []; model := None |}, 1)
  ∧ main (Request (Some []) horizon)
    = ({| success := false; error := Some "ValueError: Empty historical data";
          predictions := []; model := None |}, 1).
Proof. split; reflexivity. Qed.

Lemma py_slice_to_lookup {A} (l : list A) (n : Z) (i : nat) (x : A) :
  py_slice_to l n !! i = Some x → l !! i = Some x.
Proof.
  unfold py_slice_to. destruct (0 <=? n); intros Hx;
    by apply lookup_take_Some in Hx as [? _].
Qed.

Lemma py_slice_to_nonneg {A} (l : list A) (n : Z) :
  0 ≤ n → py_slice_to l n = take (Z.to_nat n) l.
Proof.
  intros Hn. unfold py_slice_to.
  by replace (0 <=? n) with true by (symmetry; apply Z.leb_le; lia).
Qed.

(** C5. In the model branch the check is applied to each raw value on
    its own.  Every returned value stands at the index of the raw value
    it comes from, unchanged when that value is finite and positive and
    replaced by the mean of the normalized series otherwise.  For a
    horizon that is not negative the result is this image of the first
    horizon raw values, and of all of them when the model returned
    horizon values: the vector is never replaced as a whole. *)
Theorem validation_per_element (pd : Pandas) (nf : NeuralForecast)
    (data : list record) (horizon : Z) (df : list row) (raw : list float) :
  prepare_data data = Ok df → (14 ≤ length df)%nat →
  fit_predict (nhits_model horizon (length df)) df = Ok raw →
  let checked := λ p : float,
    if positive_finite p then p else series_mean (y <$> df) in
  ∃ preds, forecast data horizon = Ok preds
    ∧ (∀ (i : nat) (q : float), preds !! i = Some q →
         ∃ p, raw !! i = Some p ∧ q = checked p)
    ∧ (0 ≤ horizon → preds = checked <$> take (Z.to_nat horizon) raw)
    ∧ (length raw = Z.to_nat horizon → preds = checked <$> raw).
Proof.
  intros Hdf Hlen Hraw checked.
  exists (validate df <$> py_slice_to raw horizon).
  split; [by apply forecast_model_ok|]. split; [|split].
  - intros i q Hq. rewrite list_lookup_fmap in Hq.
    destruct (py_slice_to raw horizon !! i) as [p|] eqn:Hp; [|discriminate].
    injection Hq as <-. exists p. split; [|done].
    by apply (py_slice_to_lookup raw horizon).
  - intros Hh. by rewrite py_slice_to_nonneg.
  - intros Hall. by rewrite py_slice_to_exact.
Qed.

Lemma validation_per_element_witness :
  let data := Reference.fortnight (PyInt 100) in
  let raw := [120%float; (-5)%float; nan; infinity; 0%float] in
  let checked := λ p : float,
    if positive_finite p then p
    else series_mean (y <$> Reference.frame_of data) in
  ∃ preds, forecast (nf:=Reference.replay raw) data 5 = Ok preds
    ∧ (∀ (i : nat) (q : float), preds !! i = Some q →
         ∃ p, raw !! i = Some p ∧ q = checked p)
    ∧ (0 ≤ 5 → preds = checked <$> take (Z.to_nat 5) raw)
    ∧ (length raw = Z.to_nat 5 → preds = checked <$> raw).
Proof.
  apply (validation_per_element Reference.pandas
           (Reference.replay [120%float; (-5)%float; nan; infinity; 0%float])
           (Reference.fortnight (PyInt 100)) 5
           (Reference.frame_of (Reference.fortnight (PyInt 100)))).
  - reflexivity.
  - vm_compute. lia.
  - reflexivity.
Defined.

(** The run of the witness above: the first value is kept, the four
    others are replaced one by one. *)
Example validation_replay :
  forecast (nf:=Reference.replay [120%float; (-5)%float; nan; infinity; 0%float])
    (Reference.fortnight (PyInt 100)) 5
  = Ok [120%float; 100%float; 100%float; 100%float; 100%float].
Proof. reflexivity. Qed.

(** C4, as stated, fails: on fourteen days of zero revenue the mean is
    zero, and a raw prediction that is not positive is replaced by it. *)
Lemma model_tier_not_always_positive :
  ¬ (∀ (pd : Pandas) (nf : NeuralForecast) (data : list record) (horizon : Z)
       (preds : list float),
       well_formed data = true → (14 ≤ length data)%nat →
       tier_of data horizon = LearnedModel →
       forecast data horizon = Ok preds →
       Forall (λ p, positive_finite p = true) preds).
Proof.
  intros Hall.
  specialize (Hall Reference.pandas (Reference.replay [(-1)%float; 2%float])
                (Reference.fortnight (PyInt 0)) 2 [0%float; 2%float]).
  assert (Forall (λ p, positive_finite p = true) [0%float; 2%float]) as Hpos.
  { apply Hall; [reflexivity|simpl; lia|reflexivity|reflexivity]. }
  inversion Hpos as [|? ? H0 _]. discriminate H0.
Qed.

(** C4, amended. Every value returned by the model branch is finite and
    positive or is the mean of the normalized series; all of them are
    finite and positive when that mean is. *)
Theorem model_tier_positive_or_mean (pd : Pandas) (nf : NeuralForecast)
    (data : list record) (horizon : Z) (preds : list float) :
  tier_of data horizon = LearnedModel →
  forecast data horizon = Ok preds →
  ∃ df, prepare_data data = Ok df
    ∧ Forall (λ p, positive_finite p = true ∨ p = series_mean (y <$> df)) preds
    ∧ (positive_finite (series_mean (y <$> df)) = true →
       Forall (λ p, positive_finite p = true) preds).
Proof.
  intros Htier Hf. pose proof (tier_of_spec data horizon) as Ht.
  rewrite Htier in Ht. destruct Ht as (df & raw & Hdf & _ & _ & Hf').
  rewrite Hf in Hf'. injection Hf' as ->. exists df. split; [done|].
  split.
  - apply Forall_fmap, Forall_true. intros p. simpl.
    destruct (validate_cases df p) as [[Hp ->]|[_ ->]]; auto.
  - intros Hmean. apply Forall_fmap, Forall_true. intros p. simpl.
    by destruct (validate_cases df p) as [[Hp ->]|[_ ->]].
Qed.

Lemma model_tier_positive_or_mean_witness :
  let data := Reference.fortnight (PyInt 100) in
  ∃ df, prepare_data data = Ok df
    ∧ Forall (λ p, positive_finite p = true ∨ p = series_mean (y <$> df))
        [120%float; 100%float]
    ∧ (positive_finite (series_mean (y <$> df)) = true →
       Forall (λ p, positive_finite p = true) [120%float; 100%float]).
Proof.
  apply (model_tier_positive_or_mean Reference.pandas
           (Reference.replay [120%float; (-5)%float])
           (Reference.fortnight (PyInt 100)) 2 [120%float; 100%float]).
  - reflexivity.
  - reflexivity.
Defined.

(** C9, as stated, fails: a request answered by the mean of five days
    and a request answered by the model carry the same tag. *)
Lemma model_tag_same_across_tiers :
  ¬ (∀ (pd : Pandas) (nf : NeuralForecast) (data1 data2 : list record)
       (horizon1 horizon2 : Z) (r1 r2 : response),
       tier_of data1 horizon1 ≠ LearnedModel →
       tier_of data2 horizon2 = LearnedModel →
       main (Request (Some data1) (Some horizon1)) = (r1, 0) →
       main (Request (Some data2) (Some horizon2)) = (r2, 0) →
       success r1 = true → success r2 = true →
       model r1 ≠ model r2).
Proof.
  intros Hall.
  apply (Hall Reference.pandas (Reference.replay [120%float])
           Reference.five_days (Reference.fortnight (PyInt 100)) 1 1
           (succeeded [100%float]).1 (succeeded [120%float]).1);
    try reflexivity.
  vm_compute. discriminate.
Qed.

(** C9, amended. Every success response carries the tag ["NHITS"],
    whichever branch computed the predictions. *)
Theorem model_tag_constant (pd : Pandas) (nf : NeuralForecast)
    (req : request) (r : response) (code : Z) :
  main req = (r, code) → success r = true → model r = Some "NHITS".
Proof.
  unfold main. destruct (main_body req) as [r'|e] eqn:Hbody.
  - intros [= <- _] _. unfold main_body in Hbody.
    destruct (request_data req); [discriminate|].
    destruct (forecast _ _) as [[|p preds]|e]; simpl in Hbody; try discriminate.
    by injection Hbody as <-.
  - by intros [= <- _].
Qed.

Lemma model_tag_constant_witness :
  model (succeeded [100%float; 100%float; 100%float]).1 = Some "NHITS".
Proof.
  apply (model_tag_constant Reference.pandas Reference.failing
           (Request (Some Reference.five_days) (Some 3))
           (succeeded [100%float; 100%float; 100%float]).1 0).
  - reflexivity.
  - reflexivity.
Defined.

(** C1, as stated, fails: a record dated 2024-13-40 with a revenue of
    100 is answered with [success: true] and seven times 100.0. *)
Lemma malformed_date_not_reported :
  ¬ (∀ (pd : Pandas) (nf : NeuralForecast) (req : request),
       has_malformed_date (request_data req) = true →
       success (main req).1 = false ∧ (main req).2 = 1).
Proof.
  intros Hall.
  destruct (Hall Reference.pandas Reference.failing
              (Request (Some [Reference.day "2024-13-40" (PyInt 100)]) None))
    as [Hsuccess _]; [reflexivity|].
  vm_compute in Hsuccess. discriminate.
Qed.

Example malformed_date_run (nf : NeuralForecast) :
  main (Request (Some [Reference.day "2024-13-40" (PyInt 100)]) None)
  = succeeded (replicate 7 100%float).
Proof. reflexivity. Qed.

(** C1, amended. When some record has a date that does not parse, the
    normalization raises in both handlers and [forecast] answers from
    the raw records: where their raw mean is computed and the horizon is
    positive, the worker answers [success: true] with horizon copies of
    that mean and exits with status 0. *)
Theorem malformed_date_last_fallback (pd : Pandas) (nf : NeuralForecast)
    (req : request) (avg : float) :
  has_malformed_date (request_data req) = true →
  raw_mean (request_data req) = Ok avg →
  0 < request_horizon req →
  forecast (request_data req) (request_horizon req)
  = Ok (replicate (Z.to_nat (request_horizon req)) avg)
  ∧ main req = succeeded (replicate (Z.to_nat (request_horizon req)) avg).
Proof.
  intros Hbad Havg Hpos.
  set (data := request_data req) in *. set (horizon := request_horizon req) in *.
  destruct (prepare_data_malformed_date data Hbad) as [e He].
  assert (data ≠ []) as Hne by (intros Hnil; by rewrite Hnil in Hbad).
  assert (forecast data horizon = Ok (py_list_mul avg horizon)) as Hf.
  { rewrite (forecast_unprepared data horizon e He). unfold last_fallback.
    destruct data; [done|]. by rewrite Havg. }
  split; [done|].
  destruct (py_list_mul_pos avg horizon Hpos) as [l Hl].
  fold (py_list_mul avg horizon). rewrite Hl. apply main_ok; [done|].
  fold data horizon. by rewrite Hf, Hl.
Qed.

Lemma malformed_date_last_fallback_witness :
  let req := Request (Some [Reference.day "2024-01-01" (PyInt 90);
                            Reference.day "2024-13-40" (PyInt 110)]) (Some 3) in
  forecast (nf:=Reference.failing) (request_data req) (request_horizon req)
  = Ok (replicate (Z.to_nat (request_horizon req)) 100%float)
  ∧ main (nf:=Reference.failing) req
    = succeeded (replicate (Z.to_nat (request_horizon req)) 100%float).
Proof.
  apply (malformed_date_last_fallback Reference.pandas Reference.failing
           (Request (Some [Reference.day "2024-01-01" (PyInt 90);
                           Reference.day "2024-13-40" (PyInt 110)]) (Some 3))
           100%float).
  - reflexivity.
  - reflexivity.
  - reflexivity.
Defined.

(** C6 on a value-malformed record. When the revenue is a string that
    pandas does not convert, the normalization raises twice and the sum
    of the innermost handler raises in turn: [forecast] lets the
    [TypeError] out instead of returning a list. *)
Theorem value_malformed_escapes (pd : Pandas) (nf : NeuralForecast)
    (date s : string) (horizon : Z) :
  is_ok (astype_float (PyStr s)) = false →
  forecast [Reference.day date (PyStr s)] horizon
  = Raise (TypeError "unsupported operand type(s) for +: 'int' and 'str'").
Proof.
  intros Hs.
  assert (∃ e, prepare_data [Reference.day date (PyStr s)] = Raise e) as [e He].
  { unfold prepare_data.
    rewrite (column_ok "date" (Reference.day date (PyStr s))); [|by left|by eexists].
    rewrite bind_ok.
    destruct (mapM _ _) as [ds_col|e]; [|by eexists]. rewrite bind_ok.
    rewrite (column_ok "revenue" (Reference.day date (PyStr s))); [|by left|by eexists].
    rewrite bind_ok, fmap_cons, mapM_cons, day_revenue. simpl default.
    destruct (astype_float (PyStr s)); [discriminate|]. by eexists. }
  by rewrite (forecast_unprepared _ horizon e He).
Qed.

Lemma value_malformed_escapes_witness :
  forecast (nf:=Reference.failing) [Reference.day "2024-01-01" (PyStr "abc")] 7
  = Raise (TypeError "unsupported operand type(s) for +: 'int' and 'str'").
Proof.
  apply (value_malformed_escapes Reference.pandas Reference.failing
           "2024-01-01" "abc" 7).
  reflexivity.
Defined.

(** The worker turns the escaped exception into a failed request. *)
Example value_malformed_run (nf : NeuralForecast) :
  main (Request (Some [Reference.day "2024-01-01" (PyStr "abc")]) (Some 7))
  = failure (TypeError "unsupported operand type(s) for +: 'int' and 'str'").
Proof. reflexivity. Qed.

(** * Further properties of the worker *)

Lemma column_inv key data col :
  column key data = Ok col →
  col = (λ d : record, default (PyFloat nan) (d !! key)) <$> data.
Proof. unfold column. destruct (existsb _ data); [|discriminate]. by intros [= <-]. Qed.

Lemma column_no_key key data :
  Forall (λ d : record, d !! key = None) data → column key data = Raise (KeyError key).
Proof.
  intros Hnone. unfold column.
  replace (existsb _ data) with false; [done|].
  symmetry. apply not_true_iff_false. intros Hex.
  apply existsb_exists in Hex as (d & Hd & Hkey).
  apply bool_decide_eq_true in Hkey as [v Hv].
  rewrite Forall_forall in Hnone. apply list_elem_of_In in Hd.
  specialize (Hnone d Hd). congruence.
Qed.

(** The frame before sorting, when the normalization succeeds. *)
Lemma prepare_data_inv (pd : Pandas) (data : list record) (df : list row) :
  prepare_data data = Ok df →
  ∃ ds_col y_col,
    mapM to_datetime ((λ d : record, default (PyFloat nan) (d !! "date")) <$> data)
    = Ok ds_col
    ∧ mapM astype_float ((λ d : record, default (PyFloat nan) (d !! "revenue")) <$> data)
      = Ok y_col
    ∧ df = sort_values (zip_with (Row "revenue") ds_col y_col).
Proof.
  unfold prepare_data.
  destruct (column "date" data) as [date|e] eqn:Hdate; [|discriminate].
  apply column_inv in Hdate as ->. rewrite bind_ok.
  destruct (mapM to_datetime _) as [ds_col|e]; [|discriminate]. rewrite bind_ok.
  destruct (column "revenue" data) as [revenue|e] eqn:Hrev; [|discriminate].
  apply column_inv in Hrev as ->. rewrite bind_ok.
  destruct (mapM astype_float _) as [y_col|e]; [|discriminate]. rewrite bind_ok.
  intros [= <-]. by exists ds_col, y_col.
Qed.

(** X1. A frame returned by [prepare_data] has one row per record, is in
    ascending order of date with the missing dates last, and every row
    carries the series name ["revenue"]. *)
Theorem prepare_data_sorted (pd : Pandas) (data : list record) (df : list row) :
  prepare_data data = Ok df →
  length df = length data
  ∧ Sorted ds_le df
  ∧ Forall (λ r, unique_id r = "revenue"%string) df.
Proof.
  intros Hdf. destruct (prepare_data_inv pd data df Hdf) as (ds_col & y_col & Hds & Hys & ->).
  apply mapM_ok_length in Hds, Hys. rewrite length_fmap in Hds, Hys.
  split; [|split].
  - rewrite sort_values_length, length_zip_with. lia.
  - apply sort_values_sorted.
  - rewrite sort_values_perm. clear Hdf Hds Hys.
    revert y_col. induction ds_col as [|t ds_col IH]; intros [|f y_col]; simpl;
      try constructor; auto.
Qed.

Lemma prepare_data_sorted_witness :
  let data := reverse Reference.five_days in
  let df := Reference.frame_of data in
  length df = length data
  ∧ Sorted ds_le df
  ∧ Forall (λ r, unique_id r = "revenue"%string) df.
Proof.
  apply (prepare_data_sorted Reference.pandas (reverse Reference.five_days)
           (Reference.frame_of (reverse Reference.five_days))).
  reflexivity.
Defined.

Lemma int_truediv_zero (b : Z) : 0 < b → int_truediv 0 b = Ok 0%float.
Proof.
  intros Hb. unfold int_truediv.
  replace (b =? 0) with false by (symmetry; apply Z.eqb_neq; lia).
  replace (b <? 0) with false by (symmetry; apply Z.ltb_ge; lia).
  change (Z.abs 0) with 0. rewrite Z.mul_0_l, Z.div_0_l, Zmod_0_l by lia.
  reflexivity.
Qed.

Lemma py_sum_missing (data : list record) :
  Forall (λ d : record, d !! "revenue" = None) data →
  py_sum (NInt 0) ((λ d : record, default (PyInt 0) (d !! "revenue")) <$> data)
  = Ok (NInt 0).
Proof.
  induction 1 as [|d data Hd _ IH]; [done|].
  rewrite fmap_cons, Hd. simpl. exact IH.
Qed.

(** X2. When no record has a revenue field, [forecast] answers with
    horizon zeros: the frame has no revenue column, and the raw mean of
    the innermost handler counts every record as [0]. *)
Theorem no_revenue_zeros (pd : Pandas) (nf : NeuralForecast)
    (data : list record) (horizon : Z) :
  Forall (λ d : record, d !! "revenue" = None) data →
  forecast data horizon = Ok (replicate (Z.to_nat horizon) 0%float).
Proof.
  intros Hnone.
  assert (∃ e, prepare_data data = Raise e) as [e He].
  { unfold prepare_data. destruct (column "date" data); [|by eexists].
    rewrite bind_ok. destruct (mapM to_datetime _); [|by eexists].
    rewrite bind_ok, (column_no_key "revenue" data Hnone). by eexists. }
  rewrite (forecast_unprepared data horizon e He). unfold last_fallback.
  destruct data as [|d data]; [done|].
  unfold raw_mean. rewrite (py_sum_missing _ Hnone), bind_ok.
  simpl py_truediv. rewrite int_truediv_zero by lia. done.
Qed.

Lemma no_revenue_zeros_witness :
  forecast (nf:=Reference.failing)
    [ {[ "date" := PyStr "2024-01-01" ]}; {[ "date" := PyStr "2024-01-02" ]} ] 3
  = Ok (replicate (Z.to_nat 3) 0%float).
Proof.
  apply (no_revenue_zeros Reference.pandas Reference.failing
           [ {[ "date" := PyStr "2024-01-01" ]}; {[ "date" := PyStr "2024-01-02" ]} ] 3).
  repeat constructor.
Defined.

(** X3. [forecast] raises only from the raw mean of the innermost
    handler: there are records, their normalization has raised, and the
    exception is the one of [sum(...) / len(data)]. *)
Theorem forecast_raise_inv (pd : Pandas) (nf : NeuralForecast)
    (data : list record) (horizon : Z) (e : exn) :
  forecast data horizon = Raise e →
  data ≠ [] ∧ is_ok (prepare_data data) = false ∧ raw_mean data = Raise e.
Proof.
  pose proof (tier_of_spec data horizon) as Ht. unfold tier_of in Ht.
  destruct (prepare_data data) as [df|e'] eqn:Hdf.
  - destruct (Z.of_nat (length df) <? 14);
      [|destruct (is_ok (fit_predict _ df))].
    + destruct Ht as (? & _ & ->). discriminate.
    + destruct Ht as (? & ? & _ & _ & _ & ->). discriminate.
    + destruct Ht as (? & _ & ->). discriminate.
  - rewrite Ht. unfold last_fallback. destruct data as [|d data]; [discriminate|].
    destruct (raw_mean (d :: data)) as [avg|e'']; [discriminate|].
    by intros [= ->].
Qed.

Lemma forecast_raise_inv_witness :
  let data := [Reference.day "2024-01-01" (PyStr "abc")] in
  data ≠ [] ∧ is_ok (prepare_data data) = false
  ∧ raw_mean data
    = Raise (TypeError "unsupported operand type(s) for +: 'int' and 'str'").
Proof.
  apply (forecast_raise_inv Reference.pandas Reference.failing
           [Reference.day "2024-01-01" (PyStr "abc")] 7).
  reflexivity.
Defined.

Lemma last_fallback_length (data : list record) (horizon : Z) (preds : list float) :
  last_fallback data horizon = Ok preds → length preds = Z.to_nat horizon.
Proof.
  unfold last_fallback. destruct data as [|d data].
  - intros [= <-]. apply py_list_mul_length.
  - destruct (raw_mean (d :: data)); [|discriminate].
    intros [= <-]. apply py_list_mul_length.
Qed.

(** X4. For a horizon that is not negative [forecast] never returns more
    than horizon values, whatever the model returns; it returns exactly
    horizon values when the answer is not the model's. *)
Theorem forecast_length_bound (pd : Pandas) (nf : NeuralForecast)
    (data : list record) (horizon : Z) (preds : list float) :
  0 ≤ horizon → forecast data horizon = Ok preds →
  (length preds ≤ Z.to_nat horizon)%nat
  ∧ (tier_of data horizon ≠ LearnedModel → length preds = Z.to_nat horizon).
Proof.
  intros Hh Hf. pose proof (tier_of_spec data horizon) as Ht.
  destruct (tier_of data horizon).
  - destruct Ht as (df & raw & _ & _ & _ & Hf'). rewrite Hf in Hf'.
    injection Hf' as ->. split; [|done].
    rewrite length_fmap. unfold py_slice_to.
    replace (0 <=? horizon) with true by (symmetry; apply Z.leb_le; lia).
    rewrite length_take. lia.
  - destruct Ht as (df & _ & Hf'). rewrite Hf in Hf'. injection Hf' as ->.
    rewrite py_list_mul_length. split; [lia|done].
  - rewrite Hf in Ht. symmetry in Ht. apply last_fallback_length in Ht.
    split; [lia|done].
Qed.

Lemma forecast_length_bound_witness :
  let preds := [120%float; 100%float] in
  (length preds ≤ Z.to_nat 2)%nat
  ∧ (tier_of (nf:=Reference.replay [120%float; (-5)%float])
       (Reference.fortnight (PyInt 100)) 2 ≠ LearnedModel →
     length preds = Z.to_nat 2).
Proof.
  apply (forecast_length_bound Reference.pandas
           (Reference.replay [120%float; (-5)%float])
           (Reference.fortnight (PyInt 100)) 2 [120%float; 100%float]).
  - lia.
  - reflexivity.
Defined.

(** X5. The answer of the main block has one of two shapes: success with
    status 0, no error, the tag and the non-empty list [forecast]
    returned; or failure with status 1, an error message, no prediction
    and no tag. *)
Theorem main_envelope (pd : Pandas) (nf : NeuralForecast) (req : request) :
  (success (main req).1 = true ∧ (main req).2 = 0
   ∧ error (main req).1 = None ∧ model (main req).1 = Some "NHITS"%string
   ∧ predictions (main req).1 ≠ []
   ∧ forecast (request_data req) (request_horizon req)
     = Ok (predictions (main req).1))
  ∨ (success (main req).1 = false ∧ (main req).2 = 1
     ∧ is_Some (error (main req).1) ∧ model (main req).1 = None
     ∧ predictions (main req).1 = []).
Proof.
  unfold main, main_body. destruct (request_data req) as [|d data] eqn:Hdata.
  - right. simpl. by repeat split.
  - destruct (forecast (d :: data) (request_horizon req)) as [[|p preds]|e];
      simpl; [right|left|right]; by repeat split.
Qed.

Lemma windowed_agrees (nf : NeuralForecast) (horizon : Z) (df : list row) :
  13 ≤ input_size (nhits_model horizon (length df)) ≤ 28 →
  input_size (nhits_model horizon (length df)) < Z.of_nat (length df) →
  @fit_predict nf (nhits_model horizon (length df)) df
  = @fit_predict (windowed nf) (nhits_model horizon (length df)) df.
Proof.
  intros [Hlo Hhi] Hlt. unfold windowed. cbn [fit_predict].
  apply Z.leb_le in Hlo, Hhi. apply Z.ltb_lt in Hlt.
  by rewrite Hlo, Hhi, Hlt.
Qed.

(** X6. [forecast] consults the model only on a frame of at least 14
    rows sorted by date, with the model it builds for the horizon, whose
    window is between 13 and 28 and shorter than the frame: two models
    that agree on these calls give the same forecast. *)
Theorem model_consulted_on_window (pd : Pandas) (nf1 nf2 : NeuralForecast)
    (data : list record) (horizon : Z) :
  (∀ df, (14 ≤ length df)%nat → Sorted ds_le df →
         13 ≤ input_size (nhits_model horizon (length df)) ≤ 28 →
         input_size (nhits_model horizon (length df)) < Z.of_nat (length df) →
         @fit_predict nf1 (nhits_model horizon (length df)) df
         = @fit_predict nf2 (nhits_model horizon (length df)) df) →
  forecast (nf:=nf1) data horizon = forecast (nf:=nf2) data horizon.
Proof.
  intros Hagree. unfold forecast.
  destruct (prepare_data data) as [df|e] eqn:Hdf; [|done]. rewrite !bind_ok.
  destruct (Z.of_nat (length df) <? 14) eqn:Hlen; [done|].
  apply Z.ltb_ge in Hlen.
  rewrite Hagree; [done|lia| |simpl; lia..].
  destruct (prepare_data_inv pd data df Hdf) as (ds_col & y_col & _ & _ & ->).
  apply sort_values_sorted.
Qed.

Lemma model_consulted_on_window_witness :
  forecast (nf:=Reference.replay [120%float; 95%float])
    (Reference.fortnight (PyInt 100)) 2
  = forecast (nf:=windowed (Reference.replay [120%float; 95%float]))
      (Reference.fortnight (PyInt 100)) 2.
Proof.
  apply (model_consulted_on_window Reference.pandas
           (Reference.replay [120%float; 95%float])
           (windowed (Reference.replay [120%float; 95%float]))
           (Reference.fortnight (PyInt 100)) 2).
  intros df _ _. apply windowed_agrees.
Defined.

(** ** The order of the records *)













(** * Properties of the weather loader *)

Implicit Types (daily : gmap string (list pyval)) (time : list pyval).
Implicit Types (rows : list Weather.weather_row) (r : Weather.weather_row).

Lemma to_number_none {py : Weather.Builtins} value :
  Weather.to_number value = Ok None ↔ value = PyNone.
Proof.
  split; [|by intros ->].
  destruct value; simpl; try done;
    repeat match goal with
           | |- context [mbind _ ?m] => destruct m; simpl; try done
           end.
Qed.

Lemma measurement_inv {py : Weather.Builtins} daily key idx o :
  Weather.measurement daily key idx = Ok o →
  ∃ col value, daily !! key = Some col ∧ col !! idx = Some value
               ∧ Weather.to_number value = Ok o.
Proof.
  unfold Weather.measurement, Weather.getitem, Weather.index.
  destruct (daily !! key) as [col|]; [|discriminate]. rewrite bind_ok.
  destruct (col !! idx) as [value|] eqn:Hvalue; [|discriminate]. rewrite bind_ok.
  intros Ho. by exists col, value.
Qed.

Lemma build_row_inv {py : Weather.Builtins} daily idx raw_date r :
  Weather.build_row daily idx raw_date = Ok r →
  Weather.fromisoformat raw_date = Ok (Weather.weather_date r)
  ∧ Weather.location r = "Lipetsk,RU"%string
  ∧ ∀ key, key ∈ Weather.measurement_keys →
      Weather.measurement daily key idx = Ok (Weather.field_of key r).
Proof.
  unfold Weather.build_row.
  destruct (Weather.fromisoformat raw_date) as [date|]; [|discriminate].
  rewrite bind_ok.
  repeat match goal with
         | |- context [Weather.measurement daily ?k idx ≫= _] =>
             destruct (Weather.measurement daily k idx) eqn:?;
               [rewrite bind_ok|discriminate]
         end.
  intros [= <-]. repeat split.
  intros key Hkey. unfold Weather.measurement_keys in Hkey.
  repeat (apply elem_of_cons in Hkey as [->|Hkey]; [assumption|]).
  by apply elem_of_nil in Hkey.
Qed.

Lemma build_rows_from_inv {py : Weather.Builtins} daily idx time rows :
  Weather.build_rows_from daily idx time = Ok rows →
  length rows = length time
  ∧ ∀ (i : nat) r, rows !! i = Some r →
      ∃ raw_date, time !! i = Some raw_date
                  ∧ Weather.build_row daily (idx + i) raw_date = Ok r.
Proof.
  revert idx rows. induction time as [|raw_date time IH]; intros idx rows; simpl.
  - intros [= <-]. split; [done|]. intros i r Hr. by rewrite lookup_nil in Hr.
  - destruct (Weather.build_row daily idx raw_date) as [r0|] eqn:Hr0; [|discriminate].
    rewrite bind_ok.
    destruct (Weather.build_rows_from daily (S idx) time) as [rows0|] eqn:Hrows0;
      [|discriminate].
    rewrite bind_ok. intros [= <-].
    destruct (IH _ _ Hrows0) as [Hlen Hrows]. split; [simpl; lia|].
    intros [|i] r Hr; simpl in Hr.
    + injection Hr as <-. exists raw_date. by rewrite Nat.add_0_r.
    + destruct (Hrows i r Hr) as (raw & Hraw & Hrow). exists raw. split; [done|].
      by replace (idx + S i)%nat with (S idx + i)%nat by lia.
Qed.

Lemma build_rows_inv {py : Weather.Builtins} daily rows :
  Weather.build_rows daily = Ok rows →
  ∃ time, daily !! "time" = Some time ∧ length rows = length time
    ∧ ∀ (i : nat) r, rows !! i = Some r →
        ∃ raw_date, time !! i = Some raw_date
                    ∧ Weather.build_row daily i raw_date = Ok r.
Proof.
  unfold Weather.build_rows, Weather.getitem.
  destruct (daily !! "time") as [time|]; [|discriminate]. rewrite bind_ok.
  intros Hrows. apply build_rows_from_inv in Hrows as [Hlen Hrows].
  by exists time.
Qed.

Lemma row_measurement {py : Weather.Builtins} daily rows (i : nat) r key :
  Weather.build_rows daily = Ok rows → rows !! i = Some r →
  key ∈ Weather.measurement_keys →
  ∃ col value, daily !! key = Some col ∧ col !! i = Some value
               ∧ Weather.to_number value = Ok (Weather.field_of key r).
Proof.
  intros Hrows Hr Hkey.
  destruct (build_rows_inv daily rows Hrows) as (time & _ & _ & Hall).
  destruct (Hall i r Hr) as (raw & _ & Hrow).
  apply build_row_inv in Hrow as (_ & _ & Hcols).
  by apply measurement_inv, Hcols.
Qed.

(** X8. The rows of [build_rows] follow [daily["time"]] entry by entry:
    as many rows as dates, and the row of index [i] holds the date parsed
    from entry [i], the location ["Lipetsk,RU"], and for each of the six
    columns the number made of its entry [i]. *)
Theorem build_rows_aligned {py : Weather.Builtins} daily rows :
  Weather.build_rows daily = Ok rows →
  ∃ time, daily !! "time" = Some time ∧ length rows = length time
    ∧ ∀ (i : nat) r, rows !! i = Some r →
        Weather.location r = "Lipetsk,RU"%string
        ∧ (∃ raw_date, time !! i = Some raw_date
             ∧ Weather.fromisoformat raw_date = Ok (Weather.weather_date r))
        ∧ ∀ key, key ∈ Weather.measurement_keys →
            ∃ col value, daily !! key = Some col ∧ col !! i = Some value
              ∧ Weather.to_number value = Ok (Weather.field_of key r).
Proof.
  intros Hrows.
  destruct (build_rows_inv daily rows Hrows) as (time & Htime & Hlen & Hall).
  exists time. split; [done|]. split; [done|]. intros i r Hr.
  destruct (Hall i r Hr) as (raw & Hraw & Hrow).
  apply build_row_inv in Hrow as (Hdate & Hloc & _).
  split; [done|]. split; [by exists raw|].
  intros key Hkey. by apply (row_measurement daily rows).
Qed.

Lemma build_rows_aligned_witness :
  let daily := Weather.three_days in
  let rows := Weather.rows_of daily in
  ∃ time, daily !! "time" = Some time ∧ length rows = length time
    ∧ ∀ (i : nat) r, rows !! i = Some r →
        Weather.location r = "Lipetsk,RU"%string
        ∧ (∃ raw_date, time !! i = Some raw_date
             ∧ Weather.fromisoformat raw_date = Ok (Weather.weather_date r))
        ∧ ∀ key, key ∈ Weather.measurement_keys →
            ∃ col value, daily !! key = Some col ∧ col !! i = Some value
              ∧ Weather.to_number value = Ok (Weather.field_of key r).
Proof.
  apply (build_rows_aligned Weather.three_days (Weather.rows_of Weather.three_days)).
  vm_compute. reflexivity.
Defined.

(** X9. When [build_rows] returns rows, each of the six columns is in
    [daily] and has an entry for every row: a missing or short column
    makes the whole call raise instead of giving fewer rows. *)
Theorem build_rows_columns_cover {py : Weather.Builtins} daily rows key :
  Weather.build_rows daily = Ok rows → rows ≠ [] →
  key ∈ Weather.measurement_keys →
  ∃ col, daily !! key = Some col ∧ (length rows ≤ length col)%nat.
Proof.
  intros Hrows Hne Hkey.
  destruct (rows !! (length rows - 1)%nat) as [r|] eqn:Hr.
  - destruct (row_measurement daily rows _ r key Hrows Hr Hkey)
      as (col & value & Hcol & Hvalue & _).
    exists col. split; [done|]. apply lookup_lt_Some in Hvalue. lia.
  - apply lookup_ge_None in Hr. destruct rows; [done|]. simpl in Hr. lia.
Qed.

Lemma build_rows_columns_cover_witness :
  ∃ col, Weather.three_days !! "snowfall_sum" = Some col
         ∧ (length (Weather.rows_of Weather.three_days) ≤ length col)%nat.
Proof.
  apply (build_rows_columns_cover Weather.three_days
           (Weather.rows_of Weather.three_days) "snowfall_sum").
  - vm_compute. reflexivity.
  - vm_compute. discriminate.
  - unfold Weather.measurement_keys. set_solver.
Defined.

(** X10. A measurement is stored as [None] exactly when the entry of the
    feed is [null]: [to_number] never turns a missing value into a
    number, nor a value into a missing one. *)
Theorem null_measurement_iff {py : Weather.Builtins} daily rows (i : nat) r key col :
  Weather.build_rows daily = Ok rows → rows !! i = Some r →
  key ∈ Weather.measurement_keys → daily !! key = Some col →
  Weather.field_of key r = None ↔ col !! i = Some PyNone.
Proof.
  intros Hrows Hr Hkey Hcol.
  destruct (row_measurement daily rows i r key Hrows Hr Hkey)
    as (col' & value & Hcol' & Hvalue & Hnum).
  rewrite Hcol in Hcol'. injection Hcol' as <-. rewrite Hvalue. split.
  - intros Hnone. rewrite Hnone in Hnum. by apply to_number_none in Hnum as ->.
  - intros [= ->]. simpl in Hnum. by injection Hnum as <-.
Qed.

Lemma null_measurement_iff_witness :
  let rows := Weather.rows_of Weather.three_days in
  let r := default (Weather.WeatherRow (Weather.Date 0 0 0) "" None None None None
                      None None) (rows !! 1%nat) in
  let col := default [] (Weather.three_days !! "snowfall_sum") in
  Weather.field_of "snowfall_sum" r = None ↔ col !! 1%nat = Some PyNone.
Proof.
  apply (null_measurement_iff Weather.three_days
           (Weather.rows_of Weather.three_days) 1 _ "snowfall_sum").
  - vm_compute. reflexivity.
  - vm_compute. reflexivity.
  - unfold Weather.measurement_keys. set_solver.
  - vm_compute. reflexivity.
Defined.

Lemma measurement_take {py : Weather.Builtins} daily (n idx : nat) key :
  (idx < n)%nat →
  Weather.measurement (take n <$> daily) key idx = Weather.measurement daily key idx.
Proof.
  intros Hidx. unfold Weather.measurement, Weather.getitem, Weather.index.
  rewrite lookup_fmap. destruct (daily !! key) as [col|]; simpl; [|done].
  by rewrite lookup_take_lt.
Qed.

Lemma build_rows_from_take {py : Weather.Builtins} daily (n idx : nat) time :
  (idx + length time ≤ n)%nat →
  Weather.build_rows_from (take n <$> daily) idx time
  = Weather.build_rows_from daily idx time.
Proof.
  revert idx. induction time as [|raw_date time IH]; intros idx Hn; [done|].
  simpl in Hn. cbn [Weather.build_rows_from]. rewrite IH by lia.
  unfold Weather.build_row. by rewrite !measurement_take by lia.
Qed.

(** X11. [build_rows] reads no entry beyond the length of
    [daily["time"]]: cutting every column to that length changes neither
    the rows nor the exception. *)
Theorem build_rows_ignores_extra {py : Weather.Builtins} daily time :
  daily !! "time" = Some time →
  Weather.build_rows (take (length time) <$> daily) = Weather.build_rows daily.
Proof.
  intros Htime. unfold Weather.build_rows, Weather.getitem.
  rewrite lookup_fmap, Htime. cbn [fmap option_fmap option_map].
  rewrite firstn_all. apply build_rows_from_take. lia.
Qed.

Lemma build_rows_ignores_extra_witness :
  Weather.build_rows
    (take (length [PyStr "2024-01-01"; PyStr "2024-01-02"; PyStr "2024-01-03"])
       <$> Weather.three_days)
  = Weather.build_rows Weather.three_days.
Proof.
  apply (build_rows_ignores_extra Weather.three_days
           [PyStr "2024-01-01"; PyStr "2024-01-02"; PyStr "2024-01-03"]).
  vm_compute. reflexivity.
Defined.

